(** * Embedded SPIR-V kernels: the kernel table lookup, the matmul executable
    builder and the rewrite driver of
    [iree/compiler/Translation/SPIRV/EmbeddedKernels.cpp].

  The C++ functions are embedded shallowly: records for the flatbuffer
  object structs, [Z] with explicit reduction modulo [2^32] for [uint32_t],
  and a small state monad with an abort outcome for the code that writes
  through [out_def], emits diagnostics and calls the asserting MLIR type
  accessors. *)

From Stdlib Require Import ZArith List String Ascii Bool Lia.
From Stdlib Require Import Strings.Byte.
From Stdlib Require Import Permutation.
Import ListNotations.

Local Open Scope string_scope.
Local Open Scope list_scope.
Local Open Scope Z_scope.

(* ================================================================= *)
(** ** Machine integers *)

Module UInt32.

Definition modulus : Z := 2 ^ 32.

(** Conversion of an [int64_t] (or any integer) to [uint32_t]. *)
Definition of_Z (z : Z) : Z := z mod modulus.

Definition in_range (z : Z) : Prop := 0 <= z < modulus.

End UInt32.

(* ================================================================= *)
(** ** C strings *)

Module CString.

Definition NUL : ascii := Ascii.zero.

Definition code (c : ascii) : Z := Z.of_N (N_of_ascii c).

(** What a [const char*] reader sees of a character sequence: the
    characters before the first NUL ([std::string::c_str] keeps embedded
    NUL characters in the buffer, and [strcmp] stops at the first). *)
Fixpoint c_str (s : string) : string :=
  match s with
  | EmptyString => EmptyString
  | String c s' => if Ascii.eqb c NUL then EmptyString else String c (c_str s')
  end.

(** [std::strcmp]: the difference of the first pair of differing
    characters (as unsigned char), the end of either sequence reading as
    the terminating NUL; [0] when both reach a NUL together. *)
Fixpoint strcmp (a b : string) : Z :=
  match a, b with
  | EmptyString, EmptyString => 0
  | EmptyString, String d _ => - code d
  | String c _, EmptyString => code c
  | String c a', String d b' =>
      if Ascii.eqb c d
      then (if Ascii.eqb c NUL then 0 else strcmp a' b')
      else code c - code d
  end.

(** A character sequence with no embedded NUL. *)
Fixpoint no_NUL (s : string) : bool :=
  match s with
  | EmptyString => true
  | String c s' => negb (Ascii.eqb c NUL) && no_NUL s'
  end.

End CString.

(* ================================================================= *)
(** ** The embedded kernel table ([Kernels/Kernels.h]) *)

Module spirv_kernels.

(** Modelled from the spec: the build-time generated header
    [Kernels/Kernels.h] is not part of the sources at hand; the table is
    an array of entries (name, raw bytes, size) whose size is a multiple of
    four, the bytes being those of 4-byte instruction words.  The
    [(data, size)] pair of the C struct is kept as the list [data] of the
    bytes taken four by four; [size] is their number of bytes. *)
Definition word_bytes : Type := (byte * byte * byte * byte)%type.

Record FileToc : Type := mkFileToc {
  name : string;
  data : list word_bytes
}.

Definition size (e : FileToc) : Z := 4 * Z.of_nat (List.length (data e)).

(** The bytes at [data], from the first to the last. *)
Definition raw_bytes (e : FileToc) : list byte :=
  flat_map (fun w => let '(b0, b1, b2, b3) := w in [b0; b1; b2; b3]) (data e).

End spirv_kernels.

Import spirv_kernels.

Module Kernel.

Definition byte_val (b : byte) : Z := Z.of_N (Byte.to_N b).

(** The [uint32_t] a little-endian host reads at four consecutive bytes. *)
Definition le32 (b0 b1 b2 b3 : byte) : Z :=
  byte_val b0 + 2 ^ 8 * byte_val b1 + 2 ^ 16 * byte_val b2
  + 2 ^ 24 * byte_val b3.

(** [std::vector<uint32_t>::resize] on a fresh vector: [n] zero words. *)
Definition resize (n : Z) : list Z := repeat 0 (Z.to_nat n).

(** [std::memcpy (code.data(), src, size)] seen through the vector: each
    word of [dst] is overwritten by the next four bytes of [src].  The
    vector was resized to [size / 4] words and [size] is four times the
    number of 4-byte groups of [src], so the copy fills the vector exactly:
    every byte of the entry lands in it and none past it. *)
Fixpoint memcpy (dst : list Z) (src : list word_bytes) : list Z :=
  match dst, src with
  | _ :: dst', (b0, b1, b2, b3) :: src' =>
      le32 b0 b1 b2 b3 :: memcpy dst' src'
  | _, _ => dst
  end.

(** The loop of [readEmbeddedKernelCode] over [fileToc[i]],
    [i = 0 .. Kernels_size() - 1]. *)
Fixpoint readEmbeddedKernelCode (fileToc : list FileToc) (kernelName : string)
  : list Z :=
  match fileToc with
  | [] => []
  | e :: rest =>
      if CString.strcmp (name e) kernelName =? 0
      then memcpy (resize (size e / 4)) (data e)
      else readEmbeddedKernelCode rest kernelName
  end.

(** The words a table entry decodes to, and their bytes back. *)
Definition decode_words (ws : list word_bytes) : list Z :=
  map (fun w => let '(b0, b1, b2, b3) := w in le32 b0 b1 b2 b3) ws.

Definition byte_of_Z (z : Z) : byte :=
  match Byte.of_N (Z.to_N z) with Some b => b | None => x00 end.

Definition bytes_of_word (w : Z) : list byte :=
  [ byte_of_Z (w mod 2 ^ 8);
    byte_of_Z (w / 2 ^ 8 mod 2 ^ 8);
    byte_of_Z (w / 2 ^ 16 mod 2 ^ 8);
    byte_of_Z (w / 2 ^ 24 mod 2 ^ 8) ].

Definition bytes_of_words (ws : list Z) : list byte :=
  flat_map bytes_of_word ws.

End Kernel.

(* ================================================================= *)
(** ** The executable definition record (flatbuffer object API) *)

Module iree.

(** Modelled from the spec: the generated flatbuffer header declaring the
    [...DefT] structs is not part of the sources at hand; the fields are
    those of the output record layout, all scalars [uint32].  A
    [std::unique_ptr] member that may be null is an [option]; a vector of
    owned elements is a list. *)
Record VkDescriptorSetLayoutBindingDefT : Type := mkBinding {
  binding : Z;
  descriptor_count : Z;
  descriptor_type : Z;
  stage_flags : Z
}.

Record VkDescriptorSetLayoutDefT : Type := mkDescriptorSetLayout {
  bindings : list VkDescriptorSetLayoutBindingDefT
}.

Record VkPipelineLayoutDefT : Type := mkPipelineLayout {
  buffer_binding_set : Z;
  descriptor_set_layouts : list VkDescriptorSetLayoutDefT
}.

Record VkSpecializationMapEntryDefT : Type := mkMapEntry {
  constant_id : Z;
  uint32_value : Z
}.

Record VkSpecializationInfoDefT : Type := mkSpecializationInfo {
  map_entries : list VkSpecializationMapEntryDefT
}.

Record SpirVExecutableDefT : Type := mkSpirVExecutableDef {
  tag : string;
  entry_points : list string;
  code : list Z;
  pipeline_layout : option VkPipelineLayoutDefT;
  specialization_info : option VkSpecializationInfoDefT
}.

(** A default-constructed definition, as a caller declares it. *)
Definition SpirVExecutableDefT_default : SpirVExecutableDefT :=
  mkSpirVExecutableDef "" [] [] None None.

End iree.

Import iree.

(* ================================================================= *)
(** ** The graph representation (MLIR and the XLA HLO dialect) *)

Module mlir.

(** Modelled from the spec: the graph representation is an external
    collaborator; an operand type exposes a rank and per-dimension extents.
    Extents are [int64_t]; a dynamic extent is the sentinel [-1].  The
    operands of a dot operation are tensors, ranked or unranked, so the
    [cast<ShapedType>] of the source always succeeds on them. *)
Inductive ShapedType : Type :=
| RankedTensorType (shape : list Z)
| UnrankedTensorType.

Definition kDynamicSize : Z := -1.

(** [ShapedType::getRank]: asserts that the type is ranked. *)
Definition getRank (t : ShapedType) : option Z :=
  match t with
  | RankedTensorType shape => Some (Z.of_nat (List.length shape))
  | UnrankedTensorType => None
  end.

(** [ShapedType::getDimSize]: asserts [0 <= i < getRank()]. *)
Definition getDimSize (t : ShapedType) (i : Z) : option Z :=
  match t with
  | RankedTensorType shape =>
      if (0 <=? i) && (i <? Z.of_nat (List.length shape))
      then nth_error shape (Z.to_nat i)
      else None
  | UnrankedTensorType => None
  end.

Inductive LogicalResult : Type := success | failure.

Definition failed (r : LogicalResult) : bool :=
  match r with failure => true | success => false end.

End mlir.

Import mlir.

Module xla_hlo.

(** An [xla_hlo.dot]: its two operands, by their types. *)
Record DotOp : Type := mkDotOp {
  lhs : ShapedType;
  rhs : ShapedType
}.

(** [dotOp.getOperand(i)->getType()], [i] being [0] or [1]. *)
Definition getOperandType (dotOp : DotOp) (i : Z) : ShapedType :=
  if i =? 0 then lhs dotOp else rhs dotOp.

End xla_hlo.

Module IR.

Set Warnings "-register-all".

(** Operations by the kinds the driver discriminates.  Any other operation
    carries its name and its nested regions (lists of blocks). *)
Inductive Operation : Type :=
| ConvOp
| DotOp (dotOp : xla_hlo.DotOp)
| OtherOp (opName : string) (regions : list (list (list Operation))).

Definition Block : Type := list Operation.

(** The operations held directly by a module: functions (with the blocks of
    their body) and anything else. *)
Inductive ModuleLevelOp : Type :=
| FuncOp (body : list Block)
| NonFuncOp (opName : string).

(** [module.getOps<FuncOp>()]: the functions of the module, in order. *)
Fixpoint getOps_FuncOp (module : list ModuleLevelOp) : list (list Block) :=
  match module with
  | [] => []
  | FuncOp body :: rest => body :: getOps_FuncOp rest
  | NonFuncOp _ :: rest => getOps_FuncOp rest
  end.

(** An [IREE::ExecutableOp], by its inner module. *)
Record ExecutableOp : Type := mkExecutableOp {
  getInnerModule : list ModuleLevelOp
}.

End IR.

Import IR.

(* ================================================================= *)
(** ** Effects: the record behind [out_def], the diagnostics, aborts *)

Module Eff.

Record State : Type := mkState {
  out_def : SpirVExecutableDefT;
  diagnostics : list string
}.

(** A computation reads and writes the state and returns a value, or
    aborts on a failed assertion ([None]). *)
Definition M (A : Type) : Type := State -> option (A * State).

Definition ret {A} (a : A) : M A := fun s => Some (a, s).

Definition bind {A B} (c : M A) (k : A -> M B) : M B :=
  fun s => match c s with
           | Some (a, s') => k a s'
           | None => None
           end.

Definition assert_some {A} (o : option A) : M A :=
  fun s => match o with Some a => Some (a, s) | None => None end.

Definition modify_out_def (f : SpirVExecutableDefT -> SpirVExecutableDefT)
  : M unit :=
  fun s => Some (tt, mkState (f (out_def s)) (diagnostics s)).

(** [executableOp.emitOpError() << msg]. *)
Definition emitOpError (msg : string) : M unit :=
  fun s => Some (tt, mkState (out_def s) (diagnostics s ++ [msg])).

End Eff.

Import Eff.

Notation "x <- c1 ;; c2" := (bind c1 (fun x => c2))
  (at level 61, c1 at next level, right associativity).
Notation "c1 ;;; c2" := (bind c1 (fun _ => c2))
  (at level 61, right associativity).

(** Field assignments through [out_def]. *)
Definition set_tag (v : string) (d : SpirVExecutableDefT) :=
  mkSpirVExecutableDef v (entry_points d) (code d) (pipeline_layout d)
    (specialization_info d).
Definition set_entry_points (v : list string) (d : SpirVExecutableDefT) :=
  mkSpirVExecutableDef (tag d) v (code d) (pipeline_layout d)
    (specialization_info d).
Definition set_code (v : list Z) (d : SpirVExecutableDefT) :=
  mkSpirVExecutableDef (tag d) (entry_points d) v (pipeline_layout d)
    (specialization_info d).
Definition set_pipeline_layout (v : VkPipelineLayoutDefT)
  (d : SpirVExecutableDefT) :=
  mkSpirVExecutableDef (tag d) (entry_points d) (code d) (Some v)
    (specialization_info d).
Definition set_specialization_info (v : VkSpecializationInfoDefT)
  (d : SpirVExecutableDefT) :=
  mkSpirVExecutableDef (tag d) (entry_points d) (code d) (pipeline_layout d)
    (Some v).

(* ================================================================= *)
(** ** The functions of [EmbeddedKernels.cpp] *)

Definition kMatmulTag : string := "__matmul__".
Definition kMatmulKernelName : string := "matmul.spv".
Definition kConvDiagnostic : string := "Conv not yet implemented".
Definition kSplatDiagnostic : string := "Failed to splat in the matmul kernel".

(** Adds a storage buffer binding to the descriptor set layout. *)
Definition addDescriptorSetLayoutBinding (binding : Z)
  (dsl : VkDescriptorSetLayoutDefT) : VkDescriptorSetLayoutDefT :=
  let bindingDef := mkBinding binding 1 7 32 in
  mkDescriptorSetLayout (bindings dsl ++ [bindingDef]).

(** Adds a specialization map entry for [constant_id] set to a 4-byte
    value. *)
Definition addSpecializationMapEntry (constant_id value : Z)
  (specializationInfoDef : VkSpecializationInfoDefT)
  : VkSpecializationInfoDefT :=
  let specValue := mkMapEntry constant_id value in
  mkSpecializationInfo (map_entries specializationInfoDef ++ [specValue]).

Section EmbeddedKernels.

(** The table returned by [spirv_kernels::Kernels_create()], with its
    [Kernels_size()] entries. *)
Variable fileToc : list FileToc.

(** Builds the executable definition for a dot operation; the narrowing of
    each [int64_t] extent into a [uint32_t] local is [UInt32.of_Z]. *)
Definition buildMatMulExecutable (dotOp : xla_hlo.DotOp) : M LogicalResult :=
  let arg0 := xla_hlo.getOperandType dotOp 0 in
  let arg1 := xla_hlo.getOperandType dotOp 1 in
  modify_out_def (set_tag kMatmulTag) ;;;
  modify_out_def (set_entry_points ["main"]) ;;;
  modify_out_def
    (set_code (Kernel.readEmbeddedKernelCode fileToc kMatmulKernelName)) ;;;
  let pipelineLayoutDef := mkPipelineLayout 0 [] in
  let dsl := mkDescriptorSetLayout [] in
  let dsl := addDescriptorSetLayoutBinding 0 dsl in
  let dsl := addDescriptorSetLayoutBinding 1 dsl in
  let dsl := addDescriptorSetLayoutBinding 2 dsl in
  let pipelineLayoutDef :=
    mkPipelineLayout (buffer_binding_set pipelineLayoutDef)
      (descriptor_set_layouts pipelineLayoutDef ++ [dsl]) in
  modify_out_def (set_pipeline_layout pipelineLayoutDef) ;;;
  rank0 <- assert_some (getRank arg0) ;;
  m64 <- assert_some
           (if rank0 =? 3 then getDimSize arg0 1 else getDimSize arg0 0) ;;
  let m := UInt32.of_Z m64 in
  rank0' <- assert_some (getRank arg0) ;;
  k64 <- assert_some
           (if rank0' =? 3 then getDimSize arg0 2 else getDimSize arg0 1) ;;
  let k := UInt32.of_Z k64 in
  rank1 <- assert_some (getRank arg1) ;;
  n64 <- assert_some
           (if rank1 =? 3 then getDimSize arg1 2 else getDimSize arg1 1) ;;
  let n := UInt32.of_Z n64 in
  let specializationInfoDef := mkSpecializationInfo [] in
  let specializationInfoDef :=
    addSpecializationMapEntry 100 m specializationInfoDef in
  let specializationInfoDef :=
    addSpecializationMapEntry 101 k specializationInfoDef in
  let specializationInfoDef :=
    addSpecializationMapEntry 102 n specializationInfoDef in
  modify_out_def (set_specialization_info specializationInfoDef) ;;;
  ret success.

(** The innermost loop, [for (auto &op : block)]: [Some b] when the body
    executed [return b], [None] when the loop ran to its end. *)
Fixpoint scanBlock (ops : Block) : M (option bool) :=
  match ops with
  | [] => ret None
  | ConvOp :: _ =>
      emitOpError kConvDiagnostic ;;;
      ret (Some false)
  | DotOp dotOp :: _ =>
      r <- buildMatMulExecutable dotOp ;;
      if failed r
      then emitOpError kSplatDiagnostic ;;; ret (Some false)
      else ret (Some true)
  | OtherOp _ _ :: rest => scanBlock rest
  end.

(** [for (auto &block : funcOp)]. *)
Fixpoint scanFunc (blocks : list Block) : M (option bool) :=
  match blocks with
  | [] => ret None
  | block :: rest =>
      r <- scanBlock block ;;
      match r with
      | Some b => ret (Some b)
      | None => scanFunc rest
      end
  end.

(** [for (auto funcOp : module.getOps<FuncOp>())]. *)
Fixpoint scanFuncs (funcOps : list (list Block)) : M (option bool) :=
  match funcOps with
  | [] => ret None
  | funcOp :: rest =>
      r <- scanFunc funcOp ;;
      match r with
      | Some b => ret (Some b)
      | None => scanFuncs rest
      end
  end.

Definition tryEmbeddedKernelRewrite (executableOp : ExecutableOp) : M bool :=
  let module := getInnerModule executableOp in
  r <- scanFuncs (getOps_FuncOp module) ;;
  match r with
  | Some b => ret b
  | None => ret false
  end.

End EmbeddedKernels.

(* ================================================================= *)
(** ** Vocabulary of the properties *)

(** The three extent reads of [buildMatMulExecutable] on their own: the raw
    [int64_t] values of [m], [k], [n] before narrowing, when every accessor
    assertion holds. *)
Definition extent_at (t : ShapedType) (batched unbatched : Z) : option Z :=
  match getRank t with
  | Some rank => if rank =? 3 then getDimSize t batched
                 else getDimSize t unbatched
  | None => None
  end.

Definition extents (dotOp : xla_hlo.DotOp) : option (Z * Z * Z) :=
  match extent_at (xla_hlo.lhs dotOp) 1 0,
        extent_at (xla_hlo.lhs dotOp) 2 1,
        extent_at (xla_hlo.rhs dotOp) 2 1 with
  | Some m, Some k, Some n => Some (m, k, n)
  | _, _, _ => None
  end.

(** The three storage-buffer bindings and the layout holding them. *)
Definition storage_buffer_binding (i : Z) : VkDescriptorSetLayoutBindingDefT :=
  mkBinding i 1 7 32.

Definition matmul_pipeline_layout : VkPipelineLayoutDefT :=
  mkPipelineLayout 0
    [ mkDescriptorSetLayout
        [ storage_buffer_binding 0;
          storage_buffer_binding 1;
          storage_buffer_binding 2 ] ].

(** The specialization entries for given [uint32_t] values of m, k, n. *)
Definition matmul_specialization (m k n : Z) : VkSpecializationInfoDefT :=
  mkSpecializationInfo [ mkMapEntry 100 m; mkMapEntry 101 k; mkMapEntry 102 n ].

(** Whether a type has a dynamic extent, and whether a dot operation has a
    dynamic extent in an operand. *)
Definition has_dynamic_dim (t : ShapedType) : bool :=
  match t with
  | RankedTensorType shape => existsb (fun d => d =? kDynamicSize) shape
  | UnrankedTensorType => true
  end.

Definition dot_is_dynamic (dotOp : xla_hlo.DotOp) : bool :=
  has_dynamic_dim (xla_hlo.lhs dotOp) || has_dynamic_dim (xla_hlo.rhs dotOp).

(** A ranked type all of whose extents are compile-time constants. *)
Definition static_shape (shape : list Z) : Prop :=
  Forall (fun d => 0 <= d) shape.

(** The operations the driver visits, in the order it visits them: the
    operations held directly by each block of each function. *)
Definition visited_ops (executableOp : ExecutableOp) : list Operation :=
  List.concat (List.concat (getOps_FuncOp (getInnerModule executableOp))).

Definition recognized (op : Operation) : bool :=
  match op with
  | ConvOp | DotOp _ => true
  | OtherOp _ _ => false
  end.

Definition first_recognized (executableOp : ExecutableOp) : option Operation :=
  find recognized (visited_ops executableOp).

(** A table all of whose names are C strings. *)
Definition names_are_c_strings (fileToc : list FileToc) : Prop :=
  Forall (fun e => CString.no_NUL (name e) = true) fileToc.

(** The definition [buildMatMulExecutable] leaves behind [out_def] for
    given [int64_t] extents. *)
Definition matmul_definition (fileToc : list FileToc) (m k n : Z)
  : SpirVExecutableDefT :=
  mkSpirVExecutableDef kMatmulTag ["main"]
    (Kernel.readEmbeddedKernelCode fileToc kMatmulKernelName)
    (Some matmul_pipeline_layout)
    (Some (matmul_specialization
             (UInt32.of_Z m) (UInt32.of_Z k) (UInt32.of_Z n))).

(** What the driver does at the first operation it recognizes. *)
Definition on_first_recognized (fileToc : list FileToc)
  (o : option Operation) : M bool :=
  match o with
  | Some ConvOp => emitOpError kConvDiagnostic ;;; ret false
  | Some (DotOp dotOp) =>
      r <- buildMatMulExecutable fileToc dotOp ;;
      if failed r then emitOpError kSplatDiagnostic ;;; ret false
      else ret true
  | Some (OtherOp _ _) | None => ret false
  end.

(** Outcome of one scanning loop whose range has [o] as its first
    recognized operation: the loop stops there. *)
Definition loop_outcome (fileToc : list FileToc) (o : option Operation)
  : M (option bool) :=
  match o with
  | Some op => b <- on_first_recognized fileToc (Some op) ;; ret (Some b)
  | None => ret None
  end.

(** Initial state of a call: a default-constructed definition and no
    diagnostic. *)
Definition initial_state : State := mkState SpirVExecutableDefT_default [].

(** Sample inputs used by the examples below. *)
Definition dot2 (m k k' n : Z) : xla_hlo.DotOp :=
  xla_hlo.mkDotOp (RankedTensorType [m; k]) (RankedTensorType [k'; n]).

Definition dot3 (b m k b' k' n : Z) : xla_hlo.DotOp :=
  xla_hlo.mkDotOp (RankedTensorType [b; m; k]) (RankedTensorType [b'; k'; n]).

Definition sample_table : list FileToc :=
  [ mkFileToc "conv.spv" [(x01, x02, x03, x04)];
    mkFileToc "matmul.spv" [(x03, x02, x23, x07); (x00, x00, x01, x00)] ].

Definition executable_of (ops : list Operation) : ExecutableOp :=
  mkExecutableOp [ NonFuncOp "module_terminator"; FuncOp [ ops ] ].

Definition table_without_matmul : list FileToc :=
  [ mkFileToc "conv.spv" [(x01, x02, x03, x04)] ].

(** The name ["matmul.spv"] followed by a NUL and one more character. *)
Definition nul_suffixed_name : string :=
  String.append kMatmulKernelName (String CString.NUL "x").

(** The test of the lookup loop on one entry, and the entry the loop
    returns at. *)
Definition name_matches (kernelName : string) (e : FileToc) : bool :=
  CString.strcmp (name e) kernelName =? 0.

Definition first_match (fileToc : list FileToc) (kernelName : string)
  : option FileToc :=
  find (name_matches kernelName) fileToc.

(** The name of an entry as its [const char*] denotes it. *)
Definition c_name (e : FileToc) : string := CString.c_str (name e).

(** Operations the driver cannot tell apart: the same kind, and for a dot
    the same operand types; names and nested regions of other operations
    are free. *)
Definition same_kind (op1 op2 : Operation) : Prop :=
  match op1, op2 with
  | ConvOp, ConvOp => True
  | DotOp d1, DotOp d2 => d1 = d2
  | OtherOp _ _, OtherOp _ _ => True
  | _, _ => False
  end.

(** Both operands ranked, of rank at least two. *)
Definition ranks_at_least_two (dotOp : xla_hlo.DotOp) : Prop :=
  exists shape0 shape1,
    xla_hlo.lhs dotOp = RankedTensorType shape0 /\
    xla_hlo.rhs dotOp = RankedTensorType shape1 /\
    (2 <= List.length shape0)%nat /\ (2 <= List.length shape1)%nat.

(** A sample unit of two functions and one with a dot operation nested in
    the region of another operation. *)
Definition two_function_unit : ExecutableOp :=
  mkExecutableOp
    [ FuncOp [ [OtherOp "xla_hlo.add" []]; [] ];
      NonFuncOp "module_terminator";
      FuncOp [ [DotOp (dot2 128 64 64 256); ConvOp] ] ].

Definition one_block_unit : ExecutableOp :=
  executable_of
    [ OtherOp "xla_hlo.while" [[[DotOp (dot2 1 2 2 3)]]];
      DotOp (dot2 128 64 64 256); ConvOp ].

(* ================================================================= *)
(** ** Facts on machine integers and C strings *)

Module UInt32Facts.
Import UInt32.

Lemma of_Z_range z : in_range (of_Z z).
Proof. unfold in_range, of_Z, modulus. apply Z.mod_pos_bound. reflexivity. Qed.

Lemma of_Z_small z : in_range z -> of_Z z = z.
Proof. unfold in_range, of_Z. intros H. now apply Z.mod_small. Qed.

Lemma of_Z_dynamic : of_Z kDynamicSize = 4294967295.
Proof. reflexivity. Qed.

End UInt32Facts.

Module CStringFacts.
Import CString.

Lemma code_zero_iff c : code c = 0 <-> c = NUL.
Proof.
  unfold code, NUL. split.
  - intros H. assert (N_of_ascii c = 0%N) as H0 by lia.
    rewrite <- (ascii_N_embedding c), H0. reflexivity.
  - intros ->. reflexivity.
Qed.

Lemma code_inj c d : code c = code d -> c = d.
Proof.
  unfold code. intros H. assert (N_of_ascii c = N_of_ascii d) as H0 by lia.
  rewrite <- (ascii_N_embedding c), <- (ascii_N_embedding d), H0. reflexivity.
Qed.

Lemma strcmp_zero_iff a : forall b, strcmp a b = 0 <-> c_str a = c_str b.
Proof.
  induction a as [|c a IH]; intros [|d b]; simpl.
  - tauto.
  - destruct (Ascii.eqb_spec d NUL) as [->|Hd].
    + split; reflexivity.
    + split; [|discriminate]. intros H. exfalso. apply Hd.
      apply code_zero_iff. lia.
  - destruct (Ascii.eqb_spec c NUL) as [->|Hc].
    + split; reflexivity.
    + split; [|discriminate]. intros H. exfalso. apply Hc.
      now apply code_zero_iff.
  - destruct (Ascii.eqb_spec c d) as [<-|Hcd].
    + destruct (Ascii.eqb_spec c NUL) as [->|Hc].
      * split; reflexivity.
      * rewrite IH. split; [intros ->; reflexivity|]. now intros [= ->].
    + split.
      * intros H. exfalso. apply Hcd, code_inj. lia.
      * destruct (Ascii.eqb_spec c NUL) as [->|Hc];
          destruct (Ascii.eqb_spec d NUL) as [->|Hd];
          try discriminate; try congruence.
Qed.

Lemma c_str_no_NUL s : no_NUL s = true -> c_str s = s.
Proof.
  induction s as [|c s IH]; simpl; [reflexivity|].
  destruct (Ascii.eqb c NUL); simpl; [discriminate|].
  intros H. now rewrite IH.
Qed.

(** On NUL-free sequences [strcmp] returning [0] is equality of the
    sequences, character for character. *)
Lemma strcmp_zero_exact a b :
  no_NUL a = true -> no_NUL b = true -> (strcmp a b = 0 <-> a = b).
Proof.
  intros Ha Hb. rewrite strcmp_zero_iff.
  now rewrite (c_str_no_NUL a Ha), (c_str_no_NUL b Hb).
Qed.

End CStringFacts.

(* ================================================================= *)
(** ** Facts on the kernel table lookup *)

Module KernelFacts.
Import Kernel.

Lemma byte_val_range b : 0 <= byte_val b < 256.
Proof.
  unfold byte_val. pose proof (Byte.to_N_bounded b). lia.
Qed.

Lemma byte_of_Z_val b : byte_of_Z (byte_val b) = b.
Proof.
  unfold byte_of_Z, byte_val. rewrite N2Z.id, Byte.of_to_N. reflexivity.
Qed.

Lemma le32_range b0 b1 b2 b3 : UInt32.in_range (le32 b0 b1 b2 b3).
Proof.
  unfold UInt32.in_range, UInt32.modulus, le32.
  pose proof (byte_val_range b0). pose proof (byte_val_range b1).
  pose proof (byte_val_range b2). pose proof (byte_val_range b3).
  change (2 ^ 8) with 256. change (2 ^ 16) with 65536.
  change (2 ^ 24) with 16777216. change (2 ^ 32) with 4294967296. lia.
Qed.

(** The four bytes of a word read back are the four bytes it was read
    from. *)
Lemma bytes_of_le32 b0 b1 b2 b3 :
  bytes_of_word (le32 b0 b1 b2 b3) = [b0; b1; b2; b3].
Proof.
  unfold bytes_of_word, le32.
  pose proof (byte_val_range b0) as H0. pose proof (byte_val_range b1) as H1.
  pose proof (byte_val_range b2) as H2. pose proof (byte_val_range b3) as H3.
  change (2 ^ 8) with 256. change (2 ^ 16) with 65536.
  change (2 ^ 24) with 16777216.
  set (w := byte_val b0 + 256 * byte_val b1 + 65536 * byte_val b2
            + 16777216 * byte_val b3).
  assert (w mod 256 = byte_val b0) as -> by (subst w; Z.div_mod_to_equations; lia).
  assert (w / 256 mod 256 = byte_val b1) as ->
      by (subst w; Z.div_mod_to_equations; lia).
  assert (w / 65536 mod 256 = byte_val b2) as ->
      by (subst w; Z.div_mod_to_equations; lia).
  assert (w / 16777216 mod 256 = byte_val b3) as ->
      by (subst w; Z.div_mod_to_equations; lia).
  now rewrite !byte_of_Z_val.
Qed.

(** [resize] to [size / 4] words followed by [memcpy] decodes every 4-byte
    group of the entry. *)
Lemma size_div_4 (e : FileToc) : size e / 4 = Z.of_nat (List.length (data e)).
Proof. unfold size. Z.div_mod_to_equations; lia. Qed.

Lemma size_mod_4 (e : FileToc) : size e mod 4 = 0.
Proof. unfold size. Z.div_mod_to_equations; lia. Qed.

Lemma memcpy_repeat (src : list word_bytes) :
  memcpy (repeat 0 (List.length src)) src = decode_words src.
Proof.
  induction src as [|[[[b0 b1] b2] b3] src IH]; [reflexivity|].
  cbn [List.length repeat memcpy decode_words map]. now rewrite IH.
Qed.

Lemma memcpy_resize (e : FileToc) :
  memcpy (resize (size e / 4)) (data e) = decode_words (data e).
Proof.
  unfold resize. rewrite size_div_4, Nat2Z.id. apply memcpy_repeat.
Qed.

Lemma decode_words_length (ws : list word_bytes) :
  List.length (decode_words ws) = List.length ws.
Proof. apply length_map. Qed.

Lemma decode_words_range (ws : list word_bytes) :
  Forall UInt32.in_range (decode_words ws).
Proof.
  induction ws as [|[[[b0 b1] b2] b3] ws IH]; constructor;
    [apply le32_range | exact IH].
Qed.

(** The words read back as bytes are the bytes of the entry. *)
Lemma bytes_of_decode_words (e : FileToc) :
  bytes_of_words (decode_words (data e)) = raw_bytes e.
Proof.
  unfold raw_bytes, bytes_of_words.
  induction (data e) as [|[[[b0 b1] b2] b3] ws IH]; [reflexivity|].
  cbn [decode_words map flat_map]. rewrite bytes_of_le32.
  cbn [app]. now rewrite <- IH.
Qed.

(** The lookup returns at the first entry [strcmp] accepts. *)
Lemma read_first_match pre e post kernelName :
  Forall (fun e' => CString.strcmp (name e') kernelName <> 0) pre ->
  CString.strcmp (name e) kernelName = 0 ->
  readEmbeddedKernelCode (pre ++ e :: post) kernelName
  = decode_words (data e).
Proof.
  intros Hpre He. induction Hpre as [|e' pre Hne _ IH];
    cbn [app readEmbeddedKernelCode].
  - rewrite He. cbn [Z.eqb]. apply memcpy_resize.
  - destruct (Z.eqb_spec (CString.strcmp (name e') kernelName) 0); [tauto|].
    exact IH.
Qed.

Lemma read_no_match fileToc kernelName :
  Forall (fun e => CString.strcmp (name e) kernelName <> 0) fileToc ->
  readEmbeddedKernelCode fileToc kernelName = [].
Proof.
  induction 1 as [|e rest Hne _ IH]; cbn; [reflexivity|].
  destruct (Z.eqb_spec (CString.strcmp (name e) kernelName) 0); [tauto|].
  exact IH.
Qed.

End KernelFacts.

(* ================================================================= *)
(** ** Facts on the builder and the driver *)

Section BuilderFacts.

Variable fileToc : list FileToc.

(** Closed form of the builder: it returns exactly when the three extent
    reads pass their assertions, and then with [success], every field of
    the record overwritten and the diagnostics untouched. *)
Lemma build_eq (dotOp : xla_hlo.DotOp) (s : State) :
  buildMatMulExecutable fileToc dotOp s
  = match extents dotOp with
    | Some (m, k, n) =>
        Some (success,
              mkState (matmul_definition fileToc m k n) (diagnostics s))
    | None => None
    end.
Proof.
  destruct dotOp as [t0 t1].
  unfold buildMatMulExecutable, extents, extent_at, bind, assert_some,
    modify_out_def, ret, xla_hlo.getOperandType.
  cbn [Z.eqb xla_hlo.lhs xla_hlo.rhs out_def diagnostics].
  destruct (getRank t0) as [r0|]; [|reflexivity].
  destruct (if r0 =? 3 then getDimSize t0 1 else getDimSize t0 0) as [m|];
    [|reflexivity].
  destruct (if r0 =? 3 then getDimSize t0 2 else getDimSize t0 1) as [k|];
    [|reflexivity].
  destruct (getRank t1) as [r1|]; [|reflexivity].
  destruct (if r1 =? 3 then getDimSize t1 2 else getDimSize t1 1) as [n|];
    reflexivity.
Qed.

Lemma build_returns dotOp s m k n :
  extents dotOp = Some (m, k, n) ->
  buildMatMulExecutable fileToc dotOp s
  = Some (success, mkState (matmul_definition fileToc m k n) (diagnostics s)).
Proof. intros H. now rewrite build_eq, H. Qed.

Lemma build_inv dotOp s r s' :
  buildMatMulExecutable fileToc dotOp s = Some (r, s') ->
  exists m k n,
    extents dotOp = Some (m, k, n) /\ r = success /\
    s' = mkState (matmul_definition fileToc m k n) (diagnostics s).
Proof.
  rewrite build_eq. destruct (extents dotOp) as [[[m k] n]|]; [|discriminate].
  intros [= <- <-]. now exists m, k, n.
Qed.

(** The extents of ranked operands of rank two and of rank three. *)
Lemma extents_rank2 m k k' n : extents (dot2 m k k' n) = Some (m, k, n).
Proof. reflexivity. Qed.

Lemma extents_rank3 b m k b' k' n :
  extents (dot3 b m k b' k' n) = Some (m, k, n).
Proof. reflexivity. Qed.

Lemma find_app {A} (f : A -> bool) (l1 l2 : list A) :
  find f (l1 ++ l2)
  = match find f l1 with Some x => Some x | None => find f l2 end.
Proof.
  induction l1 as [|x l1 IH]; cbn; [reflexivity|].
  destruct (f x); [reflexivity | exact IH].
Qed.

Lemma scanBlock_eq (ops : Block) (s : State) :
  scanBlock fileToc ops s = loop_outcome fileToc (find recognized ops) s.
Proof.
  induction ops as [|op ops IH]; [reflexivity|].
  destruct op as [|dotOp|opName regions]; cbn [scanBlock find recognized].
  - reflexivity.
  - unfold loop_outcome, on_first_recognized, bind.
    destruct (buildMatMulExecutable fileToc dotOp s) as [[[|] s']|];
      reflexivity.
  - exact IH.
Qed.

Lemma scanFunc_eq (blocks : list Block) (s : State) :
  scanFunc fileToc blocks s
  = loop_outcome fileToc (find recognized (List.concat blocks)) s.
Proof.
  induction blocks as [|block blocks IH]; [reflexivity|].
  cbn [scanFunc List.concat]. rewrite find_app. unfold bind at 1.
  rewrite scanBlock_eq.
  destruct (find recognized block) as [op|].
  - unfold loop_outcome, bind.
    destruct (on_first_recognized fileToc (Some op) s) as [[b s']|];
      reflexivity.
  - cbn. exact IH.
Qed.

Lemma scanFuncs_eq (funcOps : list (list Block)) (s : State) :
  scanFuncs fileToc funcOps s
  = loop_outcome fileToc (find recognized (List.concat (List.concat funcOps))) s.
Proof.
  induction funcOps as [|funcOp funcOps IH]; [reflexivity|].
  cbn [scanFuncs List.concat]. rewrite concat_app, find_app. unfold bind at 1.
  rewrite scanFunc_eq.
  destruct (find recognized (List.concat funcOp)) as [op|].
  - unfold loop_outcome, bind.
    destruct (on_first_recognized fileToc (Some op) s) as [[b s']|];
      reflexivity.
  - cbn. exact IH.
Qed.

(** The driver is decided by the first recognized operation among those it
    visits. *)
Lemma try_eq (executableOp : ExecutableOp) (s : State) :
  tryEmbeddedKernelRewrite fileToc executableOp s
  = on_first_recognized fileToc (first_recognized executableOp) s.
Proof.
  unfold tryEmbeddedKernelRewrite, first_recognized, visited_ops.
  unfold bind at 1. rewrite scanFuncs_eq.
  destruct (find recognized _) as [op|]; [|reflexivity].
  unfold loop_outcome, bind.
  destruct (on_first_recognized fileToc (Some op) s) as [[b s']|];
    reflexivity.
Qed.

(** The three outcomes of the driver. *)
Lemma try_cases executableOp s b s' :
  tryEmbeddedKernelRewrite fileToc executableOp s = Some (b, s') ->
  (b = false /\ s' = s) \/
  (b = false /\
   s' = mkState (out_def s) (diagnostics s ++ [kConvDiagnostic])) \/
  (b = true /\ exists dotOp m k n,
      first_recognized executableOp = Some (DotOp dotOp) /\
      extents dotOp = Some (m, k, n) /\
      s' = mkState (matmul_definition fileToc m k n) (diagnostics s)).
Proof.
  rewrite try_eq. unfold on_first_recognized.
  destruct (first_recognized executableOp) as [[|dotOp|opName regions]|].
  - intros [= <- <-]. right. left. split; reflexivity.
  - unfold bind. rewrite build_eq.
    destruct (extents dotOp) as [[[m k] n]|] eqn:He; [|discriminate].
    cbn. intros [= <- <-]. right. right. split; [reflexivity|].
    now exists dotOp, m, k, n.
  - intros [= <- <-]. left. split; reflexivity.
  - intros [= <- <-]. left. split; reflexivity.
Qed.

End BuilderFacts.

Section AuxiliaryFacts.

Lemma getDimSize_in_range shape i :
  0 <= i < Z.of_nat (List.length shape) ->
  exists d, getDimSize (RankedTensorType shape) i = Some d.
Proof.
  intros H. unfold getDimSize.
  destruct (Z.leb_spec 0 i); [|lia]. destruct (Z.ltb_spec i (Z.of_nat (List.length shape))); [|lia].
  cbn [andb]. destruct (nth_error shape (Z.to_nat i)) as [d|] eqn:E.
  - now exists d.
  - apply nth_error_None in E. lia.
Qed.

(** Ranked operands of rank at least two pass every accessor assertion. *)
Lemma extents_defined shape0 shape1 :
  (2 <= List.length shape0)%nat -> (2 <= List.length shape1)%nat ->
  exists m k n,
    extents (xla_hlo.mkDotOp (RankedTensorType shape0)
                             (RankedTensorType shape1)) = Some (m, k, n).
Proof.
  intros H0 H1. unfold extents, extent_at. cbn [xla_hlo.lhs xla_hlo.rhs getRank].
  assert (forall shape batched unbatched,
             (2 <= List.length shape)%nat ->
             0 <= unbatched < 2 -> 0 <= batched < 3 ->
             exists d,
               (if Z.of_nat (List.length shape) =? 3
                then getDimSize (RankedTensorType shape) batched
                else getDimSize (RankedTensorType shape) unbatched) = Some d)
    as Hread.
  { intros shape batched unbatched Hlen Hu Hb.
    destruct (Z.eqb_spec (Z.of_nat (List.length shape)) 3);
      apply getDimSize_in_range; lia. }
  destruct (Hread shape0 1 0 H0) as [m ->]; [lia..|].
  destruct (Hread shape0 2 1 H0) as [k ->]; [lia..|].
  destruct (Hread shape1 2 1 H1) as [n ->]; [lia..|].
  now exists m, k, n.
Qed.

Lemma find_first {A} (f : A -> bool) pre x post :
  Forall (fun y => f y = false) pre -> f x = true ->
  find f (pre ++ x :: post) = Some x.
Proof.
  intros Hpre Hx. induction Hpre as [|y pre Hy _ IH]; cbn.
  - now rewrite Hx.
  - now rewrite Hy.
Qed.

Lemma find_all_false {A} (f : A -> bool) l :
  Forall (fun y => f y = false) l -> find f l = None.
Proof.
  induction 1 as [|y l Hy _ IH]; cbn; [reflexivity|]. now rewrite Hy.
Qed.

(** In a table without repeated names an entry is the first of its name. *)
Lemma unique_name_first (fileToc : list FileToc) e :
  NoDup (map name fileToc) -> In e fileToc ->
  exists pre post,
    fileToc = pre ++ e :: post /\
    Forall (fun e' => name e' <> name e) pre.
Proof.
  intros Hnd Hin. destruct (in_split _ _ Hin) as (pre & post & ->).
  exists pre, post. split; [reflexivity|].
  rewrite map_app in Hnd. cbn [map] in Hnd.
  apply NoDup_remove_2 in Hnd. apply Forall_forall. intros e' He' Heq.
  apply Hnd. apply in_or_app. left. rewrite <- Heq. now apply in_map.
Qed.

End AuxiliaryFacts.

(* ================================================================= *)
(** ** Properties of [buildMatMulExecutable] *)




(** C2, at a concrete input: a dot operation whose first operand has a
    dynamic leading extent is assembled with [success]; the driver returns
    [true] and emits no diagnostic. *)
Lemma build_succeeds_on_dynamic_shape :
  dot_is_dynamic (dot2 kDynamicSize 64 64 256) = true /\
  buildMatMulExecutable sample_table (dot2 kDynamicSize 64 64 256)
    initial_state
  = Some (success,
          mkState (matmul_definition sample_table kDynamicSize 64 256) []) /\
  tryEmbeddedKernelRewrite sample_table
    (executable_of [DotOp (dot2 kDynamicSize 64 64 256)]) initial_state
  = Some (true,
          mkState (matmul_definition sample_table kDynamicSize 64 256) []).
Proof. repeat split. Qed.

(** C2, as amended: for every matched dot operation with a dynamic extent
    whose three extent reads pass the accessor assertions (ranked operands
    of rank at least two), no staticness check is made:
    [buildMatMulExecutable] returns [success] with every field of the
    definition written and no diagnostic, and the driver returns [true]. *)
Theorem dynamic_shape_is_assembled fileToc executableOp dotOp m k n s :
  first_recognized executableOp = Some (DotOp dotOp) ->
  dot_is_dynamic dotOp = true ->
  extents dotOp = Some (m, k, n) ->
  buildMatMulExecutable fileToc dotOp s
  = Some (success, mkState (matmul_definition fileToc m k n) (diagnostics s))
  /\
  tryEmbeddedKernelRewrite fileToc executableOp s
  = Some (true, mkState (matmul_definition fileToc m k n) (diagnostics s)).
Proof.
  intros Hfirst _ Hext. split.
  - now apply build_returns.
  - rewrite try_eq, Hfirst. unfold on_first_recognized, bind.
    now rewrite (build_returns fileToc dotOp s m k n Hext).
Qed.

(** Instance: a batched dot operation with a dynamic [m], after an
    unrecognized operation. *)
Lemma dynamic_shape_is_assembled_witness :
  buildMatMulExecutable sample_table (dot3 8 kDynamicSize 16 8 16 48)
    initial_state
  = Some (success,
          mkState (matmul_definition sample_table kDynamicSize 16 48)
            (diagnostics initial_state))
  /\
  tryEmbeddedKernelRewrite sample_table
    (executable_of [OtherOp "xla_hlo.add" [];
                    DotOp (dot3 8 kDynamicSize 16 8 16 48)])
    initial_state
  = Some (true,
          mkState (matmul_definition sample_table kDynamicSize 16 48)
            (diagnostics initial_state)).
Proof.
  apply (dynamic_shape_is_assembled sample_table
           (executable_of [OtherOp "xla_hlo.add" [];
                           DotOp (dot3 8 kDynamicSize 16 8 16 48)])
           (dot3 8 kDynamicSize 16 8 16 48) kDynamicSize 16 48 initial_state);
    reflexivity.
Defined.

(** C3, at a concrete input: the static unbatched shapes [[2^32, 1]] and
    [[1, 1]] are assembled with [success], and the entry for M holds [0],
    not the extent [2^32]. *)
Lemma large_extent_is_not_emitted_exactly :
  static_shape [2 ^ 32; 1] /\ static_shape [1; 1] /\
  exists s',
    buildMatMulExecutable sample_table (dot2 (2 ^ 32) 1 1 1) initial_state
    = Some (success, s') /\
    specialization_info (out_def s')
    = Some (mkSpecializationInfo
              [mkMapEntry 100 0; mkMapEntry 101 1; mkMapEntry 102 1]) /\
    specialization_info (out_def s')
    <> Some (matmul_specialization (2 ^ 32) 1 1).
Proof.
  split; [repeat constructor; discriminate|].
  split; [repeat constructor; discriminate|].
  exists (mkState (matmul_definition sample_table (2 ^ 32) 1 1) []).
  split; [reflexivity|]. split; [reflexivity|]. discriminate.
Qed.

(** C3, as amended: for extents [m], [k], [n] that fit an unsigned 32-bit
    integer, operands of shapes [[m,k]] and [[k',n]] are assembled with
    exactly the entries M=m, K=k, N=n, read at indices 0, 1 of operand 0 and
    1 of operand 1; operands of shapes [[b,m,k]] and [[b',k',n]] with the
    same entries, read at indices 1, 2 of operand 0 and 2 of operand 1,
    whatever the batch extents, which are not emitted; the constant ids are
    100, 101, 102 in this order, pairwise distinct. *)
Theorem specialization_constants_are_m_k_n fileToc s m k n :
  UInt32.in_range m -> UInt32.in_range k -> UInt32.in_range n ->
  (forall k',
      exists s',
        buildMatMulExecutable fileToc (dot2 m k k' n) s = Some (success, s') /\
        specialization_info (out_def s')
        = Some (mkSpecializationInfo
                  [mkMapEntry 100 m; mkMapEntry 101 k; mkMapEntry 102 n])) /\
  (forall b b' k',
      exists s',
        buildMatMulExecutable fileToc (dot3 b m k b' k' n) s
        = Some (success, s') /\
        specialization_info (out_def s')
        = Some (mkSpecializationInfo
                  [mkMapEntry 100 m; mkMapEntry 101 k; mkMapEntry 102 n])) /\
  NoDup (map constant_id
           [mkMapEntry 100 m; mkMapEntry 101 k; mkMapEntry 102 n]).
Proof.
  intros Hm Hk Hn.
  assert (matmul_specialization (UInt32.of_Z m) (UInt32.of_Z k) (UInt32.of_Z n)
          = mkSpecializationInfo
              [mkMapEntry 100 m; mkMapEntry 101 k; mkMapEntry 102 n]) as Hspec.
  { unfold matmul_specialization.
    now rewrite !UInt32Facts.of_Z_small by assumption. }
  split; [|split].
  - intros k'. eexists. split.
    + apply build_returns, extents_rank2.
    + cbn. now rewrite Hspec.
  - intros b b' k'. eexists. split.
    + apply build_returns, extents_rank3.
    + cbn. now rewrite Hspec.
  - cbn. repeat constructor; cbn; intuition discriminate.
Qed.

(** Instance: m = 128, k = 64, n = 256. *)
Lemma specialization_constants_are_m_k_n_witness :
  (forall k',
      exists s',
        buildMatMulExecutable sample_table (dot2 128 64 k' 256) initial_state
        = Some (success, s') /\
        specialization_info (out_def s')
        = Some (mkSpecializationInfo
                  [mkMapEntry 100 128; mkMapEntry 101 64; mkMapEntry 102 256]))
  /\
  (forall b b' k',
      exists s',
        buildMatMulExecutable sample_table (dot3 b 128 64 b' k' 256)
          initial_state = Some (success, s') /\
        specialization_info (out_def s')
        = Some (mkSpecializationInfo
                  [mkMapEntry 100 128; mkMapEntry 101 64; mkMapEntry 102 256]))
  /\
  NoDup (map constant_id
           [mkMapEntry 100 128; mkMapEntry 101 64; mkMapEntry 102 256]).
Proof.
  apply (specialization_constants_are_m_k_n sample_table initial_state
           128 64 256);
    unfold UInt32.in_range, UInt32.modulus; lia.
Defined.

(** C4: every dot operation whose extent reads pass (the ones that are
    assembled) is assembled with [success] into a definition with the tag
    ["__matmul__"], the single entry point ["main"], and a pipeline layout
    with [buffer_binding_set] 0 holding exactly one descriptor-set layout of
    exactly three bindings 0, 1, 2 in this order, each with descriptor count
    1, descriptor type 7 and stage flags 0x20, whatever the extents and
    whatever the record held before. *)
Theorem layout_is_fixed fileToc dotOp s m k n :
  extents dotOp = Some (m, k, n) ->
  exists s',
    buildMatMulExecutable fileToc dotOp s = Some (success, s') /\
    tag (out_def s') = "__matmul__" /\
    entry_points (out_def s') = ["main"] /\
    pipeline_layout (out_def s')
    = Some (mkPipelineLayout 0
              [mkDescriptorSetLayout
                 [mkBinding 0 1 7 32; mkBinding 1 1 7 32; mkBinding 2 1 7 32]]).
Proof.
  intros He. eexists. split; [apply build_returns; exact He|].
  repeat split.
Qed.

(** Instance: the batched shapes [[2,8,16]] and [[2,16,48]], from a
    default-constructed record. *)
Lemma layout_is_fixed_witness :
  exists s',
    buildMatMulExecutable sample_table (dot3 2 8 16 2 16 48) initial_state
    = Some (success, s') /\
    tag (out_def s') = "__matmul__" /\
    entry_points (out_def s') = ["main"] /\
    pipeline_layout (out_def s')
    = Some (mkPipelineLayout 0
              [mkDescriptorSetLayout
                 [mkBinding 0 1 7 32; mkBinding 1 1 7 32; mkBinding 2 1 7 32]]).
Proof.
  apply (layout_is_fixed sample_table (dot3 2 8 16 2 16 48) initial_state
           8 16 48).
  reflexivity.
Defined.

(* ================================================================= *)
(** ** Properties of [tryEmbeddedKernelRewrite] *)

(** C5: when the first recognized operation the scan meets is a
    convolution (the scan goes through the functions of the unit, their
    blocks and the operations of each block, in order), the driver emits
    exactly one diagnostic and returns [false] at once: the record behind
    [out_def] is untouched and whatever follows the convolution, a dot
    operation included, plays no part. *)
Theorem conv_is_a_hard_stop fileToc executableOp pre post s :
  visited_ops executableOp = pre ++ ConvOp :: post ->
  Forall (fun op => recognized op = false) pre ->
  tryEmbeddedKernelRewrite fileToc executableOp s
  = Some (false,
          mkState (out_def s) (diagnostics s ++ ["Conv not yet implemented"])).
Proof.
  intros Hvis Hpre. rewrite try_eq. unfold first_recognized.
  rewrite Hvis, (find_first recognized pre ConvOp post Hpre eq_refl).
  reflexivity.
Qed.

(** Instance: a convolution between an unrecognized operation and a dot
    operation. *)
Lemma conv_is_a_hard_stop_witness :
  tryEmbeddedKernelRewrite sample_table
    (executable_of [OtherOp "xla_hlo.add" []; ConvOp;
                    DotOp (dot2 128 64 64 256)])
    initial_state
  = Some (false,
          mkState (out_def initial_state)
            (diagnostics initial_state ++ ["Conv not yet implemented"])).
Proof.
  apply (conv_is_a_hard_stop sample_table
           (executable_of [OtherOp "xla_hlo.add" []; ConvOp;
                           DotOp (dot2 128 64 64 256)])
           [OtherOp "xla_hlo.add" []] [DotOp (dot2 128 64 64 256)]
           initial_state).
  - reflexivity.
  - repeat constructor.
Defined.

(** C6: when no operation the scan visits is recognized, the driver returns
    [false] with the state as it was: no diagnostic is emitted and the
    record behind [out_def] is untouched. *)
Theorem no_recognized_op_is_no_match fileToc executableOp s :
  Forall (fun op => recognized op = false) (visited_ops executableOp) ->
  tryEmbeddedKernelRewrite fileToc executableOp s = Some (false, s).
Proof.
  intros H. rewrite try_eq. unfold first_recognized.
  now rewrite (find_all_false recognized _ H).
Qed.

(** Instance: three functions, none of whose blocks holds a recognized
    operation directly; the regions nested in an operation are not
    entered. *)
Lemma no_recognized_op_is_no_match_witness :
  tryEmbeddedKernelRewrite sample_table
    (mkExecutableOp
       [FuncOp [[OtherOp "xla_hlo.add" []]; [OtherOp "std.return" []]];
        FuncOp [];
        FuncOp [[OtherOp "xla_hlo.while" [[[DotOp (dot2 1 2 2 3)]]]]]])
    initial_state
  = Some (false, initial_state).
Proof.
  apply (no_recognized_op_is_no_match sample_table
           (mkExecutableOp
              [FuncOp [[OtherOp "xla_hlo.add" []]; [OtherOp "std.return" []]];
               FuncOp [];
               FuncOp [[OtherOp "xla_hlo.while" [[[DotOp (dot2 1 2 2 3)]]]]]])
           initial_state).
  repeat constructor.
Defined.




(** C9: each specialization value is the operand extent, an [int64_t],
    reduced modulo [2^32], hence an unsigned 32-bit integer; a dynamic
    extent, the sentinel [-1], is emitted as [4294967295] and the call
    returns [success]. *)
Theorem specialization_values_are_uint32 fileToc dotOp s m k n :
  extents dotOp = Some (m, k, n) ->
  (exists s',
      buildMatMulExecutable fileToc dotOp s = Some (success, s') /\
      specialization_info (out_def s')
      = Some (mkSpecializationInfo
                [mkMapEntry 100 (m mod 2 ^ 32);
                 mkMapEntry 101 (k mod 2 ^ 32);
                 mkMapEntry 102 (n mod 2 ^ 32)])) /\
  Forall UInt32.in_range [m mod 2 ^ 32; k mod 2 ^ 32; n mod 2 ^ 32] /\
  (m = kDynamicSize -> m mod 2 ^ 32 = 4294967295) /\
  (k = kDynamicSize -> k mod 2 ^ 32 = 4294967295) /\
  (n = kDynamicSize -> n mod 2 ^ 32 = 4294967295).
Proof.
  intros He. split; [|split].
  - eexists. split; [apply build_returns; exact He|]. reflexivity.
  - repeat constructor; apply UInt32Facts.of_Z_range.
  - repeat split; intros ->; reflexivity.
Qed.

(** Instance: dynamic [m] and [n], and [k = 2^32 + 5]. *)
Lemma specialization_values_are_uint32_witness :
  (exists s',
      buildMatMulExecutable sample_table
        (dot3 2 kDynamicSize (2 ^ 32 + 5) 2 5 kDynamicSize) initial_state
      = Some (success, s') /\
      specialization_info (out_def s')
      = Some (mkSpecializationInfo
                [mkMapEntry 100 (kDynamicSize mod 2 ^ 32);
                 mkMapEntry 101 ((2 ^ 32 + 5) mod 2 ^ 32);
                 mkMapEntry 102 (kDynamicSize mod 2 ^ 32)])) /\
  Forall UInt32.in_range
    [kDynamicSize mod 2 ^ 32; (2 ^ 32 + 5) mod 2 ^ 32;
     kDynamicSize mod 2 ^ 32] /\
  (kDynamicSize = kDynamicSize -> kDynamicSize mod 2 ^ 32 = 4294967295) /\
  (2 ^ 32 + 5 = kDynamicSize -> (2 ^ 32 + 5) mod 2 ^ 32 = 4294967295) /\
  (kDynamicSize = kDynamicSize -> kDynamicSize mod 2 ^ 32 = 4294967295).
Proof.
  apply (specialization_values_are_uint32 sample_table
           (dot3 2 kDynamicSize (2 ^ 32 + 5) 2 5 kDynamicSize) initial_state).
  reflexivity.
Defined.

(** C10: whenever the driver returns [false], the record behind [out_def]
    is the one it was given: no field is written on a path that returns
    [false]. *)
Theorem false_leaves_out_def_unchanged fileToc executableOp s s' :
  tryEmbeddedKernelRewrite fileToc executableOp s = Some (false, s') ->
  out_def s' = out_def s.
Proof.
  intros H.
  apply try_cases in H as [[_ ->] | [[_ ->] | [H _]]];
    [reflexivity | reflexivity | discriminate H].
Qed.

(** Instance: a record already written and one earlier diagnostic, on a
    unit that starts with a convolution. *)
Lemma false_leaves_out_def_unchanged_witness :
  out_def
    (mkState (matmul_definition sample_table 1 2 3)
       ["earlier diagnostic"; "Conv not yet implemented"])
  = out_def
      (mkState (matmul_definition sample_table 1 2 3) ["earlier diagnostic"]).
Proof.
  apply (false_leaves_out_def_unchanged sample_table
           (executable_of [ConvOp; DotOp (dot2 128 64 64 256)])).
  reflexivity.
Defined.

(* ================================================================= *)
(** ** Properties of [readEmbeddedKernelCode] *)

(** C7: for every kernel name (a C string: no NUL character) over the
    table (names are C strings, sizes multiples of four): if some entry's
    name equals the queried name character for character, the lookup
    returns the bytes of the first such entry (of that very entry when
    names are unique in the table) copied into [size / 4] unsigned 32-bit
    words whose bytes are exactly the entry's bytes; if no entry's name
    equals the queried name, it returns the empty vector.  No other entry
    is ever returned, and the table is only read. *)
Theorem lookup_is_exact_on_c_strings fileToc kernelName :
  CString.no_NUL kernelName = true ->
  names_are_c_strings fileToc ->
  (forall pre e post,
      fileToc = pre ++ e :: post ->
      Forall (fun e' => name e' <> kernelName) pre ->
      name e = kernelName ->
      Z.of_nat (List.length (Kernel.readEmbeddedKernelCode fileToc kernelName))
      = size e / 4 /\
      Forall UInt32.in_range (Kernel.readEmbeddedKernelCode fileToc kernelName)
      /\
      Kernel.bytes_of_words (Kernel.readEmbeddedKernelCode fileToc kernelName)
      = raw_bytes e) /\
  (forall e,
      NoDup (map name fileToc) -> In e fileToc -> name e = kernelName ->
      Z.of_nat (List.length (Kernel.readEmbeddedKernelCode fileToc kernelName))
      = size e / 4 /\
      Kernel.bytes_of_words (Kernel.readEmbeddedKernelCode fileToc kernelName)
      = raw_bytes e) /\
  ((forall e, In e fileToc -> name e <> kernelName) ->
   Kernel.readEmbeddedKernelCode fileToc kernelName = []).
Proof.
  intros Hk Hnames.
  assert (forall l, Forall (fun e => CString.no_NUL (name e) = true) l ->
                    Forall (fun e' => name e' <> kernelName) l ->
                    Forall (fun e' => CString.strcmp (name e') kernelName <> 0) l)
    as Hne.
  { intros l Hc Hl. rewrite Forall_forall in *. intros e' He' Hz.
    apply (Hl e' He'). apply CStringFacts.strcmp_zero_exact; auto. }
  assert (forall pre e post,
             fileToc = pre ++ e :: post ->
             Forall (fun e' => name e' <> kernelName) pre ->
             name e = kernelName ->
             Kernel.readEmbeddedKernelCode fileToc kernelName
             = Kernel.decode_words (data e)) as Hfirst.
  { intros pre e post -> Hpre He.
    unfold names_are_c_strings in Hnames.
    apply Forall_app in Hnames as [Hcpre Hcrest].
    apply KernelFacts.read_first_match.
    - now apply Hne.
    - apply CStringFacts.strcmp_zero_iff. now rewrite He. }
  assert (forall e,
             Z.of_nat (List.length (Kernel.decode_words (data e))) = size e / 4)
    as Hlen.
  { intros e. now rewrite KernelFacts.decode_words_length,
                KernelFacts.size_div_4. }
  split; [|split].
  - intros pre e post Hsplit Hpre He.
    rewrite (Hfirst pre e post Hsplit Hpre He).
    split; [apply Hlen|]. split.
    + apply KernelFacts.decode_words_range.
    + apply KernelFacts.bytes_of_decode_words.
  - intros e Hnd Hin He.
    destruct (unique_name_first fileToc e Hnd Hin) as (pre & post & Hs & Hp).
    rewrite He in Hp. rewrite (Hfirst pre e post Hs Hp He).
    split; [apply Hlen | apply KernelFacts.bytes_of_decode_words].
  - intros Hnone. apply KernelFacts.read_no_match. apply Hne.
    + exact Hnames.
    + now apply Forall_forall.
Qed.

(** Instance: the sample table queried for ["matmul.spv"], its second
    entry of eight bytes, and for the absent ["matmul.comp"]. *)
Lemma lookup_is_exact_on_c_strings_witness :
  (Z.of_nat (List.length (Kernel.readEmbeddedKernelCode sample_table "matmul.spv"))
   = 8 / 4 /\
   Forall UInt32.in_range
     (Kernel.readEmbeddedKernelCode sample_table "matmul.spv") /\
   Kernel.bytes_of_words
     (Kernel.readEmbeddedKernelCode sample_table "matmul.spv")
   = [x03; x02; x23; x07; x00; x00; x01; x00]) /\
  Kernel.readEmbeddedKernelCode sample_table "matmul.comp" = [].
Proof.
  split.
  - destruct (lookup_is_exact_on_c_strings sample_table "matmul.spv")
      as (Hfirst & _ & _).
    + reflexivity.
    + repeat constructor.
    + apply (Hfirst [mkFileToc "conv.spv" [(x01, x02, x03, x04)]]
               (mkFileToc "matmul.spv"
                  [(x03, x02, x23, x07); (x00, x00, x01, x00)]) []).
      * reflexivity.
      * repeat constructor. discriminate.
      * reflexivity.
  - destruct (lookup_is_exact_on_c_strings sample_table "matmul.comp")
      as (_ & _ & Hnone).
    + reflexivity.
    + repeat constructor.
    + apply Hnone. intros e [<-|[<-|[]]]; discriminate.
Defined.

(* ================================================================= *)
(** ** Further properties of [readEmbeddedKernelCode] *)

Section LookupFacts.

Lemma c_str_idempotent s : CString.c_str (CString.c_str s) = CString.c_str s.
Proof.
  induction s as [|c s IH]; cbn; [reflexivity|].
  destruct (Ascii.eqb c CString.NUL) eqn:E; cbn; [reflexivity|].
  now rewrite E, IH.
Qed.

Lemma name_matches_iff kernelName e :
  name_matches kernelName e = true
  <-> c_name e = CString.c_str kernelName.
Proof.
  unfold name_matches, c_name. rewrite Z.eqb_eq.
  apply CStringFacts.strcmp_zero_iff.
Qed.

Lemma name_matches_c_str q1 q2 e :
  CString.c_str q1 = CString.c_str q2 ->
  name_matches q1 e = name_matches q2 e.
Proof.
  intros H. apply eq_true_iff_eq. rewrite !name_matches_iff. now rewrite H.
Qed.

(** The loop returns the decoded bytes of the first entry its test
    accepts. *)
Lemma read_eq fileToc kernelName :
  Kernel.readEmbeddedKernelCode fileToc kernelName
  = match first_match fileToc kernelName with
    | Some e => Kernel.decode_words (data e)
    | None => []
    end.
Proof.
  unfold first_match. induction fileToc as [|e rest IH]; [reflexivity|].
  cbn [Kernel.readEmbeddedKernelCode find]. fold (name_matches kernelName e).
  destruct (name_matches kernelName e); [|exact IH].
  apply KernelFacts.memcpy_resize.
Qed.

Lemma decode_words_nil_iff e :
  Kernel.decode_words (data e) = [] <-> size e = 0.
Proof.
  unfold size. destruct (data e) as [|w ws]; cbn [Kernel.decode_words map].
  - split; reflexivity.
  - split; [discriminate|]. cbn [List.length]. lia.
Qed.

End LookupFacts.

(** X1: the lookup reads the queried name as a C string: two queries with
    the same characters before their first NUL retrieve the same words from
    any table. *)
Theorem lookup_depends_on_c_str fileToc q1 q2 :
  CString.c_str q1 = CString.c_str q2 ->
  Kernel.readEmbeddedKernelCode fileToc q1
  = Kernel.readEmbeddedKernelCode fileToc q2.
Proof.
  intros H. induction fileToc as [|e rest IH]; [reflexivity|].
  cbn [Kernel.readEmbeddedKernelCode]. fold (name_matches q1 e).
  fold (name_matches q2 e). rewrite (name_matches_c_str q1 q2 e H).
  now rewrite IH.
Qed.

(** Instance: ["matmul.spv"] and the same name followed by a NUL and one
    more character. *)
Lemma lookup_depends_on_c_str_witness :
  Kernel.readEmbeddedKernelCode sample_table kMatmulKernelName
  = Kernel.readEmbeddedKernelCode sample_table nul_suffixed_name.
Proof.
  apply (lookup_depends_on_c_str sample_table kMatmulKernelName
           nul_suffixed_name).
  reflexivity.
Defined.

(** X2: over a table made of two parts the first part decides whenever it
    holds an entry the test accepts; only otherwise is the second part
    searched: entries after the first accepted one are never reached. *)
Theorem lookup_first_part_wins fileToc1 fileToc2 kernelName :
  Kernel.readEmbeddedKernelCode (fileToc1 ++ fileToc2) kernelName
  = match first_match fileToc1 kernelName with
    | Some _ => Kernel.readEmbeddedKernelCode fileToc1 kernelName
    | None => Kernel.readEmbeddedKernelCode fileToc2 kernelName
    end.
Proof.
  rewrite !read_eq. unfold first_match. rewrite find_app.
  destruct (find (name_matches kernelName) fileToc1); reflexivity.
Qed.

(** X3: the lookup returns the empty vector exactly when no entry is
    accepted or the first accepted entry has size zero: a found entry
    without bytes and a missing entry give the same result. *)
Theorem lookup_empty_iff fileToc kernelName :
  Kernel.readEmbeddedKernelCode fileToc kernelName = []
  <-> match first_match fileToc kernelName with
      | Some e => size e = 0
      | None => True
      end.
Proof.
  rewrite read_eq. destruct (first_match fileToc kernelName) as [e|].
  - apply decode_words_nil_iff.
  - tauto.
Qed.

(** Instance: an entry without bytes is found, ahead of a later entry of
    the same name, and gives the empty vector. *)
Lemma lookup_empty_iff_witness :
  Kernel.readEmbeddedKernelCode
    [mkFileToc "empty.spv" []; mkFileToc "empty.spv" [(x01, x02, x03, x04)]]
    "empty.spv" = [].
Proof.
  apply (proj2 (lookup_empty_iff
                  [mkFileToc "empty.spv" [];
                   mkFileToc "empty.spv" [(x01, x02, x03, x04)]]
                  "empty.spv")).
  reflexivity.
Defined.

Section LookupOrder.

Lemma first_match_permutation fileToc fileToc' kernelName :
  Permutation fileToc fileToc' ->
  NoDup (map c_name fileToc) ->
  first_match fileToc kernelName = first_match fileToc' kernelName.
Proof.
  induction 1 as [|e l l' Hperm IH|x y l|l l' l'' H1 IH1 H2 IH2]; intros Hnd.
  - reflexivity.
  - unfold first_match in *. cbn. destruct (name_matches kernelName e);
      [reflexivity|]. apply IH. cbn in Hnd. now inversion Hnd.
  - unfold first_match. cbn.
    destruct (name_matches kernelName y) eqn:Ey;
      destruct (name_matches kernelName x) eqn:Ex; try reflexivity.
    apply name_matches_iff in Ey, Ex. cbn in Hnd.
    inversion Hnd as [|? ? Hnotin _]. exfalso. apply Hnotin. left.
    congruence.
  - rewrite IH1 by assumption. apply IH2.
    apply (Permutation_NoDup (Permutation_map c_name H1) Hnd).
Qed.

End LookupOrder.

(** X4: when the names of a table, read as C strings, are pairwise
    distinct, the order of its entries does not matter: every reordering of
    the table gives the same result for every query. *)
Theorem lookup_order_irrelevant fileToc fileToc' kernelName :
  NoDup (map c_name fileToc) ->
  Permutation fileToc fileToc' ->
  Kernel.readEmbeddedKernelCode fileToc kernelName
  = Kernel.readEmbeddedKernelCode fileToc' kernelName.
Proof.
  intros Hnd Hperm. rewrite !read_eq.
  now rewrite (first_match_permutation fileToc fileToc' kernelName Hperm Hnd).
Qed.

(** Instance: the sample table and its two entries swapped. *)
Lemma lookup_order_irrelevant_witness :
  Kernel.readEmbeddedKernelCode sample_table kMatmulKernelName
  = Kernel.readEmbeddedKernelCode
      [ mkFileToc "matmul.spv" [(x03, x02, x23, x07); (x00, x00, x01, x00)];
        mkFileToc "conv.spv" [(x01, x02, x03, x04)] ]
      kMatmulKernelName.
Proof.
  apply (lookup_order_irrelevant sample_table).
  - repeat constructor; cbn; intuition discriminate.
  - apply perm_swap.
Defined.

(* ================================================================= *)
(** ** Further properties of the layout and specialization helpers *)

(** X5: [addDescriptorSetLayoutBinding] only appends: after any sequence of
    calls the layout holds its earlier bindings unchanged, followed by one
    storage-buffer binding per call, in call order; an index already
    present is neither rejected nor merged. *)
Theorem bindings_accumulate_in_call_order indices dsl :
  bindings
    (fold_left (fun d i => addDescriptorSetLayoutBinding i d) indices dsl)
  = bindings dsl ++ map storage_buffer_binding indices.
Proof.
  revert dsl. induction indices as [|i indices IH]; intros dsl; cbn.
  - now rewrite app_nil_r.
  - rewrite IH. cbn. now rewrite <- app_assoc.
Qed.

(** X6: [addSpecializationMapEntry] only appends: after any sequence of
    calls the earlier entries are unchanged and followed by one entry per
    call, in call order; a constant id already present is neither rejected
    nor overwritten. *)
Theorem map_entries_accumulate_in_call_order
  (calls : list (Z * Z)) (info : VkSpecializationInfoDefT) :
  map_entries
    (fold_left (fun d c => addSpecializationMapEntry (fst c) (snd c) d)
       calls info)
  = map_entries info ++ map (fun c => mkMapEntry (fst c) (snd c)) calls.
Proof.
  revert info. induction calls as [|c calls IH]; intros info; cbn.
  - now rewrite app_nil_r.
  - rewrite IH. cbn. now rewrite <- app_assoc.
Qed.

(* ================================================================= *)
(** ** Further properties of [buildMatMulExecutable] *)

Section ExtentFacts.

Lemma extent_at_ranked t batched unbatched d :
  extent_at t batched unbatched = Some d ->
  0 <= unbatched <= batched -> 1 <= unbatched ->
  exists shape,
    t = RankedTensorType shape /\ (2 <= List.length shape)%nat.
Proof.
  intros H Hub Hu. destruct t as [shape|]; [|discriminate H].
  exists shape. split; [reflexivity|].
  unfold extent_at in H. cbn [getRank] in H.
  destruct (Z.eqb_spec (Z.of_nat (List.length shape)) 3) as [E|E]; [lia|].
  unfold getDimSize in H.
  destruct (Z.leb_spec 0 unbatched); [|discriminate H].
  destruct (Z.ltb_spec unbatched (Z.of_nat (List.length shape)));
    [|discriminate H].
  lia.
Qed.

Lemma extents_some_ranks dotOp m k n :
  extents dotOp = Some (m, k, n) -> ranks_at_least_two dotOp.
Proof.
  unfold extents. intros H.
  destruct (extent_at (xla_hlo.lhs dotOp) 1 0) as [m'|]; [|discriminate H].
  destruct (extent_at (xla_hlo.lhs dotOp) 2 1) as [k'|] eqn:Ek;
    [|discriminate H].
  destruct (extent_at (xla_hlo.rhs dotOp) 2 1) as [n'|] eqn:En;
    [|discriminate H].
  destruct (extent_at_ranked _ 2 1 k' Ek) as (shape0 & H0 & L0); [lia..|].
  destruct (extent_at_ranked _ 2 1 n' En) as (shape1 & H1 & L1); [lia..|].
  now exists shape0, shape1.
Qed.

Lemma ranks_extents dotOp :
  ranks_at_least_two dotOp -> exists m k n, extents dotOp = Some (m, k, n).
Proof.
  intros (shape0 & shape1 & H0 & H1 & L0 & L1).
  destruct dotOp as [t0 t1]. cbn in H0, H1. subst.
  now apply extents_defined.
Qed.

End ExtentFacts.

(** X7: [buildMatMulExecutable] returns exactly on the dot operations whose
    two operands are ranked of rank at least two; on an unranked operand or
    one of rank below two an accessor assertion aborts the call. *)
Theorem build_returns_iff_ranks fileToc dotOp s :
  (exists r s', buildMatMulExecutable fileToc dotOp s = Some (r, s'))
  <-> ranks_at_least_two dotOp.
Proof.
  split.
  - intros (r & s' & H). apply build_inv in H as (m & k & n & He & _).
    exact (extents_some_ranks dotOp m k n He).
  - intros H. destruct (ranks_extents dotOp H) as (m & k & n & He).
    eexists. eexists. apply build_returns. exact He.
Qed.

(** Instance: a vector-matrix dot operation (rank one on the left) aborts;
    a rank-two one returns. *)
Lemma build_returns_iff_ranks_witness :
  buildMatMulExecutable sample_table
    (xla_hlo.mkDotOp (RankedTensorType [64]) (RankedTensorType [64; 256]))
    initial_state = None /\
  exists r s',
    buildMatMulExecutable sample_table (dot2 128 64 64 256) initial_state
    = Some (r, s').
Proof.
  split.
  - destruct (buildMatMulExecutable sample_table
                (xla_hlo.mkDotOp (RankedTensorType [64])
                   (RankedTensorType [64; 256])) initial_state)
      as [[r s']|] eqn:E; [|reflexivity].
    exfalso.
    assert (ranks_at_least_two
              (xla_hlo.mkDotOp (RankedTensorType [64])
                 (RankedTensorType [64; 256]))) as (s0 & s1 & H0 & _ & L0 & _).
    { apply (proj1 (build_returns_iff_ranks sample_table _ initial_state)).
      now exists r, s'. }
    cbn in H0. injection H0 as <-. cbn in L0. lia.
  - apply (proj2 (build_returns_iff_ranks sample_table (dot2 128 64 64 256)
                    initial_state)).
    exists [128; 64], [64; 256]. cbn. repeat split; lia.
Defined.

(** X8: only rank three is read as batched.  An operand of any other rank
    (two, four or more) is read at its two leading dimensions: M and K are
    dimensions 0 and 1 of operand 0 and N is dimension 1 of operand 1,
    reduced modulo [2^32]; trailing dimensions are ignored. *)
Theorem other_ranks_read_leading_dims fileToc s m k rest0 k' n rest1 :
  List.length rest0 <> 1%nat -> List.length rest1 <> 1%nat ->
  buildMatMulExecutable fileToc
    (xla_hlo.mkDotOp (RankedTensorType (m :: k :: rest0))
                     (RankedTensorType (k' :: n :: rest1))) s
  = Some (success,
          mkState (matmul_definition fileToc m k n) (diagnostics s)).
Proof.
  intros H0 H1. apply build_returns.
  unfold extents, extent_at. cbn [xla_hlo.lhs xla_hlo.rhs getRank].
  destruct (Z.eqb_spec (Z.of_nat (List.length (m :: k :: rest0))) 3) as [E|_];
    [cbn [List.length] in E; lia|].
  destruct (Z.eqb_spec (Z.of_nat (List.length (k' :: n :: rest1))) 3) as [E|_];
    [cbn [List.length] in E; lia|].
  unfold getDimSize. cbn [List.length].
  repeat match goal with
         | |- context [?a <? ?b] =>
             destruct (Z.ltb_spec a b); [|lia]
         end.
  reflexivity.
Qed.

(** Instance: operands of rank four and rank two. *)
Lemma other_ranks_read_leading_dims_witness :
  buildMatMulExecutable sample_table
    (xla_hlo.mkDotOp (RankedTensorType [2; 3; 32; 16])
                     (RankedTensorType [16; 48])) initial_state
  = Some (success,
          mkState (matmul_definition sample_table 2 3 48)
            (diagnostics initial_state)).
Proof.
  apply (other_ranks_read_leading_dims sample_table initial_state
           2 3 [32; 16] 16 48 []);
    cbn; lia.
Defined.

(** X9: the rank of each operand is tested on its own and the operands are
    not compared: a batched operand 0 with an unbatched operand 1, and the
    converse, are assembled with [success], M and K coming from operand 0
    and N from operand 1, each by its own rank. *)
Theorem operand_ranks_are_independent fileToc s b m k k' n :
  buildMatMulExecutable fileToc
    (xla_hlo.mkDotOp (RankedTensorType [b; m; k]) (RankedTensorType [k'; n])) s
  = Some (success, mkState (matmul_definition fileToc m k n) (diagnostics s))
  /\
  buildMatMulExecutable fileToc
    (xla_hlo.mkDotOp (RankedTensorType [m; k]) (RankedTensorType [b; k'; n])) s
  = Some (success, mkState (matmul_definition fileToc m k n) (diagnostics s)).
Proof. split; apply build_returns; reflexivity. Qed.

(** X10: every field of the record behind [out_def] is overwritten: the
    definition left by a call does not depend on the record or the
    diagnostics it started from, and a second call on the same operation
    changes nothing. *)
Theorem build_overwrites_every_field fileToc dotOp s1 s2 r s1' :
  buildMatMulExecutable fileToc dotOp s1 = Some (r, s1') ->
  (exists s2',
      buildMatMulExecutable fileToc dotOp s2 = Some (r, s2') /\
      out_def s2' = out_def s1' /\ diagnostics s2' = diagnostics s2) /\
  buildMatMulExecutable fileToc dotOp s1' = Some (r, s1').
Proof.
  intros H. apply build_inv in H as (m & k & n & He & -> & ->). split.
  - eexists. split; [apply build_returns; exact He|]. split; reflexivity.
  - rewrite (build_returns fileToc dotOp _ m k n He). reflexivity.
Qed.

(** Instance: a call on a fresh record and on one already written. *)
Lemma build_overwrites_every_field_witness :
  (exists s2',
      buildMatMulExecutable sample_table (dot2 128 64 64 256)
        (mkState (matmul_definition table_without_matmul 1 2 3) ["earlier"])
      = Some (success, s2') /\
      out_def s2'
      = out_def (mkState (matmul_definition sample_table 128 64 256) []) /\
      diagnostics s2'
      = diagnostics
          (mkState (matmul_definition table_without_matmul 1 2 3) ["earlier"]))
  /\
  buildMatMulExecutable sample_table (dot2 128 64 64 256)
    (mkState (matmul_definition sample_table 128 64 256) [])
  = Some (success, mkState (matmul_definition sample_table 128 64 256) []).
Proof.
  apply (build_overwrites_every_field sample_table (dot2 128 64 64 256)
           initial_state).
  reflexivity.
Defined.

(* ================================================================= *)
(** ** Further properties of [tryEmbeddedKernelRewrite] *)

Section DriverFacts.

Variable fileToc : list FileToc.

Lemma on_first_same_kind l1 l2 s :
  Forall2 same_kind l1 l2 ->
  on_first_recognized fileToc (find recognized l1) s
  = on_first_recognized fileToc (find recognized l2) s.
Proof.
  induction 1 as [|op1 op2 l1 l2 Hk _ IH]; [reflexivity|].
  destruct op1 as [|d1|n1 r1], op2 as [|d2|n2 r2]; cbn in Hk;
    try contradiction; cbn [find recognized].
  - reflexivity.
  - now subst.
  - exact IH.
Qed.

End DriverFacts.

(** X11: the first recognized operation wins also when it is a dot
    operation: the driver returns [true] with the definition of that dot
    operation and emits nothing, whatever follows it in the unit, a
    convolution or another dot operation included. *)
Theorem first_dot_wins fileToc executableOp pre dotOp post m k n s :
  visited_ops executableOp = pre ++ DotOp dotOp :: post ->
  Forall (fun op => recognized op = false) pre ->
  extents dotOp = Some (m, k, n) ->
  tryEmbeddedKernelRewrite fileToc executableOp s
  = Some (true, mkState (matmul_definition fileToc m k n) (diagnostics s)).
Proof.
  intros Hvis Hpre He. rewrite try_eq. unfold first_recognized.
  rewrite Hvis, (find_first recognized pre (DotOp dotOp) post Hpre eq_refl).
  unfold on_first_recognized, bind.
  now rewrite (build_returns fileToc dotOp s m k n He).
Qed.

(** Instance: a dot operation followed by a convolution and by a second
    dot operation of other shapes. *)
Lemma first_dot_wins_witness :
  tryEmbeddedKernelRewrite sample_table
    (executable_of [OtherOp "xla_hlo.add" []; DotOp (dot2 128 64 64 256);
                    ConvOp; DotOp (dot3 8 32 16 8 16 48)])
    initial_state
  = Some (true,
          mkState (matmul_definition sample_table 128 64 256)
            (diagnostics initial_state)).
Proof.
  apply (first_dot_wins sample_table
           (executable_of [OtherOp "xla_hlo.add" []; DotOp (dot2 128 64 64 256);
                           ConvOp; DotOp (dot3 8 32 16 8 16 48)])
           [OtherOp "xla_hlo.add" []] (dot2 128 64 64 256)
           [ConvOp; DotOp (dot3 8 32 16 8 16 48)]).
  - reflexivity.
  - repeat constructor.
  - reflexivity.
Defined.

(** X12: a [true] return means a dot operation was the first recognized
    operation: no diagnostic was emitted and the record behind [out_def] is
    the complete definition built from that operation, with the looked-up
    code, the layout and the three specialization entries. *)
Theorem true_means_first_dot_assembled fileToc executableOp s s' :
  tryEmbeddedKernelRewrite fileToc executableOp s = Some (true, s') ->
  diagnostics s' = diagnostics s /\
  exists dotOp m k n,
    first_recognized executableOp = Some (DotOp dotOp) /\
    extents dotOp = Some (m, k, n) /\
    out_def s' = matmul_definition fileToc m k n.
Proof.
  intros H.
  apply try_cases in H
      as [[H _] | [[H _] | [_ (dotOp & m & k & n & Hf & He & ->)]]];
    [discriminate H | discriminate H |].
  split; [reflexivity|]. now exists dotOp, m, k, n.
Qed.

(** Instance: the unit of two functions, whose first recognized operation
    is a dot operation in the second function. *)
Lemma true_means_first_dot_assembled_witness :
  diagnostics (mkState (matmul_definition sample_table 128 64 256) [])
  = diagnostics initial_state /\
  exists dotOp m k n,
    first_recognized two_function_unit = Some (DotOp dotOp) /\
    extents dotOp = Some (m, k, n) /\
    out_def (mkState (matmul_definition sample_table 128 64 256) [])
    = matmul_definition sample_table m k n.
Proof.
  apply (true_means_first_dot_assembled sample_table two_function_unit
           initial_state).
  reflexivity.
Defined.

(** X13: the driver sees a unit only as the sequence of operations held
    directly by the blocks of its functions: two units whose sequences agree
    kind by kind (and operand types by operand types for dot operations)
    behave alike, so the split into functions and blocks, the operations of
    the module that are not functions, and the names and nested regions of
    unrecognized operations play no part. *)
Theorem driver_sees_only_visited_kinds fileToc executableOp1 executableOp2 s :
  Forall2 same_kind (visited_ops executableOp1) (visited_ops executableOp2) ->
  tryEmbeddedKernelRewrite fileToc executableOp1 s
  = tryEmbeddedKernelRewrite fileToc executableOp2 s.
Proof.
  intros H. rewrite !try_eq. unfold first_recognized.
  now apply on_first_same_kind.
Qed.

(** Instance: two functions against one block; an operation without
    regions against one with a dot operation nested in its region. *)
Lemma driver_sees_only_visited_kinds_witness :
  tryEmbeddedKernelRewrite sample_table two_function_unit initial_state
  = tryEmbeddedKernelRewrite sample_table one_block_unit initial_state.
Proof.
  apply (driver_sees_only_visited_kinds sample_table two_function_unit
           one_block_unit initial_state).
  repeat constructor.
Defined.

(** X14: the driver aborts exactly when the first recognized operation is a
    dot operation on which an accessor assertion fails (an unranked operand
    or one of rank below two); in every other case it returns. *)
Theorem driver_aborts_iff fileToc executableOp s :
  tryEmbeddedKernelRewrite fileToc executableOp s = None
  <-> exists dotOp,
      first_recognized executableOp = Some (DotOp dotOp) /\
      ~ ranks_at_least_two dotOp.
Proof.
  rewrite try_eq. unfold on_first_recognized.
  destruct (first_recognized executableOp) as [[|dotOp|opName regions]|].
  - split; [discriminate|]. intros (d & H & _). discriminate H.
  - unfold bind. rewrite build_eq.
    destruct (extents dotOp) as [[[m k] n]|] eqn:He.
    + split; [discriminate|]. intros (d & [= <-] & Hn). exfalso. apply Hn.
      exact (extents_some_ranks dotOp m k n He).
    + split; [|reflexivity]. intros _. exists dotOp. split; [reflexivity|].
      intros Hr. destruct (ranks_extents dotOp Hr) as (m & k & n & He').
      congruence.
  - split; [discriminate|]. intros (d & H & _). discriminate H.
  - split; [discriminate|]. intros (d & H & _). discriminate H.
Qed.

(** Instance: a unit whose first recognized operation is a dot operation
    with an unranked operand. *)
Lemma driver_aborts_iff_witness :
  tryEmbeddedKernelRewrite sample_table
    (executable_of
       [DotOp (xla_hlo.mkDotOp UnrankedTensorType (RankedTensorType [2; 3]));
        ConvOp])
    initial_state = None.
Proof.
  apply (proj2 (driver_aborts_iff sample_table _ initial_state)).
  eexists. split; [reflexivity|].
  intros (s0 & s1 & H0 & _). discriminate H0.
Defined.

(** X15: running the driver again on the same unit, from the state the
    first run left, gives the same result flag and the same record behind
    [out_def], and emits once more what the first run emitted: nothing, or
    the one convolution diagnostic of a [false] return. *)
Theorem driver_rerun_keeps_definition fileToc executableOp s b s1 :
  tryEmbeddedKernelRewrite fileToc executableOp s = Some (b, s1) ->
  exists s2 emitted,
    tryEmbeddedKernelRewrite fileToc executableOp s1 = Some (b, s2) /\
    out_def s2 = out_def s1 /\
    diagnostics s1 = diagnostics s ++ emitted /\
    diagnostics s2 = diagnostics s1 ++ emitted /\
    (emitted = [] \/
     (emitted = ["Conv not yet implemented"] /\ b = false)).
Proof.
  intros H. rewrite try_eq in *. unfold on_first_recognized in *.
  destruct (first_recognized executableOp) as [[|dotOp|opName regions]|].
  - injection H as <- <-. eexists. exists [kConvDiagnostic].
    repeat split. right. split; reflexivity.
  - unfold bind in *. rewrite build_eq in *.
    destruct (extents dotOp) as [[[m k] n]|]; [|discriminate H].
    cbn in *. injection H as <- <-. eexists. exists [].
    cbn. rewrite !app_nil_r. repeat split. now left.
  - injection H as <- <-. exists s, []. rewrite !app_nil_r.
    repeat split. now left.
  - injection H as <- <-. exists s, []. rewrite !app_nil_r.
    repeat split. now left.
Qed.

(** Instance: a unit that starts with a convolution, run twice after one
    earlier diagnostic. *)
Lemma driver_rerun_keeps_definition_witness :
  exists s2 emitted,
    tryEmbeddedKernelRewrite sample_table
      (executable_of [ConvOp; DotOp (dot2 128 64 64 256)])
      (mkState SpirVExecutableDefT_default
         ["earlier diagnostic"; "Conv not yet implemented"])
    = Some (false, s2) /\
    out_def s2
    = out_def (mkState SpirVExecutableDefT_default
                 ["earlier diagnostic"; "Conv not yet implemented"]) /\
    diagnostics (mkState SpirVExecutableDefT_default
                   ["earlier diagnostic"; "Conv not yet implemented"])
    = diagnostics (mkState SpirVExecutableDefT_default ["earlier diagnostic"])
      ++ emitted /\
    diagnostics s2
    = diagnostics (mkState SpirVExecutableDefT_default
                     ["earlier diagnostic"; "Conv not yet implemented"])
      ++ emitted /\
    (emitted = [] \/
     (emitted = ["Conv not yet implemented"] /\ false = false)).
Proof.
  apply (driver_rerun_keeps_definition sample_table
           (executable_of [ConvOp; DotOp (dot2 128 64 64 256)])
           (mkState SpirVExecutableDefT_default ["earlier diagnostic"])).
  reflexivity.
Defined.
